(** * Verification of [scripts/run_yahoo_pead.py]

    A shallow embedding of the 30-day implied-volatility estimator
    ([pick_expiries], [nearest_atm_iv], [iv30_from_yahoo]), of the daily
    statistics helper ([gapfill_and_clv]) and of the drift scorer
    ([simple_pead]), with the properties the specification states about them.

    Numbers.  Python [int]s are [Z].  Python [float]s are modelled by exact
    rationals ([Q]): every operation of the program except [math.sqrt] maps
    rationals to rationals, and [math.sqrt] is interpreted in the real numbers
    ([R]) by [iv30_value].  Rounding errors of binary64 arithmetic are therefore
    not part of the main model.  The one expression of the program whose
    integer result depends on binary64 rounding, [int(d*86400)] in
    [pick_expiries], is also embedded bit-exactly in module [Binary64]. *)

From Stdlib Require Import ZArith QArith Qround Qabs Qminmax Lia.
From Stdlib Require Import Bool List Sorted String Ascii.
From Stdlib Require Import Reals Qreals Psatz.
From Stdlib Require PrimFloat FloatOps SpecFloat Uint63.
Import ListNotations.

#[local] Open Scope Q_scope.
#[local] Set Warnings "-register-all".

(** ** Python's numeric built-ins on exact numbers *)

(** [x < y] as a test. *)
Definition Qltb (x y : Q) : bool := negb (Qle_bool y x).

(** [min(a, b)]: the first argument unless the second is strictly smaller. *)
Definition py_min (a b : Q) : Q := if Qltb b a then b else a.

(** [max(a, b)]: the first argument unless the second is strictly larger. *)
Definition py_max (a b : Q) : Q := if Qltb a b then b else a.

(** [int(x)]: truncation toward zero. *)
Definition py_int (x : Q) : Z := Z.quot (Qnum x) (Zpos (Qden x)).

(** Rounding to the nearest integer, ties to the even neighbour. *)
Definition round_half_even (y : Q) : Z :=
  let n := Qfloor y in
  let r := y - inject_Z n in
  if Qltb r (1#2) then n
  else if Qltb (1#2) r then (n + 1)%Z
  else if Z.even n then n else (n + 1)%Z.

(** [round(x, ndigits)] for [ndigits >= 0]. *)
Definition py_round (x : Q) (ndigits : nat) : Q :=
  let s := inject_Z (10 ^ Z.of_nat ndigits) in
  inject_Z (round_half_even (x * s)) / s.

(** ** DriftScorer: [simple_pead] *)

(** Lines 95-100: the additive score. *)
Definition pead_score (clv gapFillPct ivCrush : option Q) : Q :=
  let score := 0.0 in
  let score :=
    match clv with
    | Some c => score + (if Qle_bool 0 c then 1.0 else -0.5)
    | None => score
    end in
  let score :=
    match gapFillPct with
    | Some g => score + (if Qle_bool g 33.0 then 1.0 else -0.5)
    | None => score
    end in
  match ivCrush with
  | Some x =>
      if Qle_bool (-40) x && Qle_bool x (-5) then score + 1.0
      else if Qltb x (-50) then score - 0.5
      else score
  | None => score
  end.

(** Lines 101-104: [(round(pead,2), rng, conf)]. *)
Definition simple_pead (clv gapFillPct ivCrush : option Q) : Q * list Z * Q :=
  let score := pead_score clv gapFillPct ivCrush in
  let pead := py_max (-8.0) (py_min 12.0 (2.0 * score)) in
  let rng := [py_int (pead - 3); py_int (pead + 3)] in
  let conf := py_max 0.1 (py_min 0.8 (py_round (0.35 + 0.1 * score) 2)) in
  (py_round pead 2, rng, conf).

(** ** Gap-fill / CLV helper: [gapfill_and_clv] *)

(** The dictionary built by [yahoo_hist_day], restricted to the keys
    [gapfill_and_clv] reads. *)
Record bar : Type := Bar { open : Q; high : Q; low : Q; close : Q }.

Definition gapfill_and_clv (prev_close : Q) (d0 : bar) : Q * Q :=
  let o := open d0 in
  let h := high d0 in
  let l := low d0 in
  let c := close d0 in
  let gap := if Qle_bool prev_close o then o - prev_close else prev_close - o in
  let retr := if Qle_bool prev_close o then o - l else h - o in
  let gapFillPct :=
    if Qltb 1e-9 gap then py_min 150.0 (100.0 * (retr / gap)) else 0.0 in
  let clv := if Qltb l h then (2 * c - h - l) / (h - l) else 0.0 in
  (py_round gapFillPct 2, py_round clv 3).


(** The components of the results. *)
Definition gapFillPct_of (r : Q * Q) : Q := fst r.
Definition clv_of (r : Q * Q) : Q := snd r.
Definition peadPct (r : Q * list Z * Q) : Q := fst (fst r).
Definition rangePct (r : Q * list Z * Q) : list Z := snd (fst r).
Definition confidence (r : Q * list Z * Q) : Q := snd r.


(** ** Parsed JSON and Python's dynamic operations on it *)

(** A value returned by [json.loads].  Integers and finite floats are both
    [JNum] (the non-finite floats are not modelled); an object is the list of
    its items in insertion order. *)
Inductive json : Type :=
| JNull
| JBool (b : bool)
| JNum (q : Q)
| JStr (s : string)
| JArr (items : list json)
| JObj (fields : list (string * json)).

(** The exceptions (all subclasses of [Exception]) that the modelled
    operations raise; [OtherError] stands for whatever the HTTP collaborator
    raises (connection failure, time-out, undecodable payload). *)
Inductive exn : Type :=
| KeyError
| IndexError
| TypeError
| AttributeError
| OtherError (msg : string).

(** A computation that returns a value or raises. *)
Definition exc (A : Type) : Type := (exn + A)%type.

Definition ret {A : Type} (a : A) : exc A := inr a.
Definition raise {A : Type} (e : exn) : exc A := inl e.
Definition bind {A B : Type} (c : exc A) (k : A -> exc B) : exc B :=
  match c with
  | inl e => inl e
  | inr a => k a
  end.

Notation "x <- c ;; k" := (bind c (fun x => k))
  (at level 61, c at next level, right associativity).

Fixpoint foldM {A B : Type} (f : A -> B -> exc A) (a : A) (l : list B) : exc A :=
  match l with
  | [] => ret a
  | b :: l' => a' <- f a b ;; foldM f a' l'
  end.

Fixpoint lookup (k : string) (fields : list (string * json)) : option json :=
  match fields with
  | [] => None
  | (k', v) :: rest => if String.eqb k k' then Some v else lookup k rest
  end.

(** [v[k]] for a string key [k]. *)
Definition getitem (v : json) (k : string) : exc json :=
  match v with
  | JObj fields =>
      match lookup k fields with
      | Some x => ret x
      | None => raise KeyError
      end
  | _ => raise TypeError
  end.

(** [v[0]]. *)
Definition getitem0 (v : json) : exc json :=
  match v with
  | JArr (x :: _) => ret x
  | JArr [] => raise IndexError
  | JStr (String c _) => ret (JStr (String c EmptyString))
  | JStr EmptyString => raise IndexError
  | JObj _ => raise KeyError
  | _ => raise TypeError
  end.

(** [v.get(k, default)]: only dictionaries have the method. *)
Definition get (v : json) (k : string) (default : json) : exc json :=
  match v with
  | JObj fields =>
      match lookup k fields with
      | Some x => ret x
      | None => ret default
      end
  | _ => raise AttributeError
  end.

(** The items [for x in v] runs over. *)
Definition iter (v : json) : exc (list json) :=
  match v with
  | JArr items => ret items
  | JStr s => ret (map (fun c => JStr (String c EmptyString)) (list_ascii_of_string s))
  | JObj fields => ret (map (fun kv => JStr (fst kv)) fields)
  | _ => raise TypeError
  end.

(** The value of [v] in arithmetic and in order comparisons with a number
    ([bool] is a subclass of [int]). *)
Definition number (v : json) : exc Q :=
  match v with
  | JNum q => ret q
  | JBool true => ret 1
  | JBool false => ret 0
  | _ => raise TypeError
  end.

(** [bool(v)]. *)
Definition truthy (v : json) : bool :=
  match v with
  | JNull => false
  | JBool b => b
  | JNum q => negb (Qeq_bool q 0)
  | JStr s => negb (String.eqb s EmptyString)
  | JArr items => match items with [] => false | _ => true end
  | JObj fields => match fields with [] => false | _ => true end
  end.

(** [v is None]. *)
Definition is_none (v : json) : bool :=
  match v with
  | JNull => true
  | _ => false
  end.

(** [v in (None, 0)]: identity or equality with [None] or [0]. *)
Definition in_none_zero (v : json) : bool :=
  match v with
  | JNull => true
  | JBool b => negb b
  | JNum q => Qeq_bool q 0
  | _ => false
  end.

(** [l[0]] and [l[-1]] on a list of numbers. *)
Definition first_item (l : list Q) : exc Q :=
  match l with
  | [] => raise IndexError
  | d :: _ => ret d
  end.

Definition last_item (l : list Q) : exc Q :=
  match l with
  | [] => raise IndexError
  | d :: l' => ret (last l' d)
  end.

Definition nonempty {A : Type} (l : list A) : bool :=
  match l with
  | [] => false
  | _ => true
  end.

(** ** IV30Estimator *)

(** Line 41: [[(e - t_now_unix)/86400.0 for e in exp_unix if e > t_now_unix + 86400]]. *)
Fixpoint future_days (es : list json) (t_now_unix : Z) : exc (list Q) :=
  match es with
  | [] => ret []
  | e :: es' =>
      x <- number e ;;
      ds <- future_days es' t_now_unix ;;
      ret (if Qltb (inject_Z (t_now_unix + 86400)) x
           then (x - inject_Z t_now_unix) / 86400.0 :: ds
           else ds)
  end.

(** Lines 45-46: [t_now_unix + int(d*86400)]. *)
Definition to_unix (t_now_unix : Z) (d : Q) : Z := (t_now_unix + py_int (d * 86400))%Z.

Definition pick_expiries (exp_unix : json) (t_now_unix : Z) (target_days : Q)
  : exc (option Z * option Z) :=
  es <- iter exp_unix ;;
  days <- future_days es t_now_unix ;;
  if negb (nonempty days) then ret (None, None)
  else
    let below := filter (fun d => Qle_bool d target_days) days in
    let above := filter (fun d => Qle_bool target_days d) days in
    d1 <- (if nonempty below then last_item below else first_item above) ;;
    d2 <- (if nonempty above then first_item above else last_item below) ;;
    ret (Some (to_unix t_now_unix d1), Some (to_unix t_now_unix d2)).

(** Lines 52-56: one iteration of the loop of [nearest_atm_iv] on the state
    [(best_iv, best_diff)]. *)
Definition atm_step (spot : json) (st : json * Q) (opt : json) : exc (json * Q) :=
  k <- get opt "strike" JNull ;;
  iv <- get opt "impliedVolatility" JNull ;;
  if is_none k || in_none_zero iv then ret st
  else
    kq <- number k ;;
    sq <- number spot ;;
    let d := Qabs (kq - sq) in
    if Qltb d (snd st) then ret (iv, d) else ret st.

Definition nearest_atm_iv (options spot : json) : exc json :=
  opts <- iter options ;;
  st <- foldM (atm_step spot) (JNull, 1e18) opts ;;
  ret (fst st).

(** Lines 73-74: [ivc if ivp is None else (ivc+ivp)/2 if ivc else ivp]. *)
Definition combine_iv (ivc ivp : json) : exc json :=
  if is_none ivp then ret ivc
  else if truthy ivc then
    a <- number ivc ;;
    b <- number ivp ;;
    ret (JNum ((a + b) / 2))
  else ret ivp.

(** Line 78: [max(1e-6, (e - t_now)/31557600.0)]. *)
Definition year_fraction (e t_now : Z) : Q :=
  py_max 1e-6 (inject_Z (e - t_now) / 31557600.0).

(** [alpha] of line 80. *)
Definition alpha (T1 T2 : Q) : Q :=
  let Tt := 30.0 / 365.25 in
  if Qltb 1e-9 (Qabs (T2 - T1)) then (Tt - T1) / (T2 - T1) else 0.5.

(** Lines 79-82: the argument handed to [math.sqrt]. *)
Definition interpolate (iv1 iv2 T1 T2 : Q) : Q :=
  let Tt := 30.0 / 365.25 in
  let var1 := iv1 * iv1 * T1 in
  let var2 := iv2 * iv2 * T2 in
  let vart := var1 + (var2 - var1) * alpha T1 T2 in
  py_max 1e-10 (vart / Tt).

(** What [iv30_from_yahoo] returns when it does not return [None]: a value
    taken from the chain as it is, or [math.sqrt(radicand)]. *)
Inductive iv30 : Type :=
| Quoted (v : json)
| Root (radicand : Q).


(** Lines 75-82. *)
Definition blend (t_now e1 e2 : Z) (iv1 iv2 : json) : exc (option iv30) :=
  if is_none iv1 && is_none iv2 then ret None
  else if is_none iv1 then ret (Some (Quoted iv2))
  else if is_none iv2 then ret (Some (Quoted iv1))
  else
    let T1 := year_fraction e1 t_now in
    let T2 := year_fraction e2 t_now in
    a <- number iv1 ;;
    b <- number iv2 ;;
    ret (Some (Root (interpolate a b T1 T2))).

(** [c["optionChain"]["result"][0]] (lines 61, 69 and 70). *)
Definition chain_result (c : json) : exc json :=
  oc <- getitem c "optionChain" ;;
  rs <- getitem oc "result" ;;
  getitem0 rs.

(** [c["optionChain"]["result"][0]["options"][0]] (lines 69 and 70). *)
Definition options_of (c : json) : exc json :=
  r <- chain_result c ;;
  os <- getitem r "options" ;;
  getitem0 os.

(** Lines 71-74 for both expiries. *)
Definition atm_ivs (j1 j2 spot : json) : exc (json * json) :=
  calls1 <- get j1 "calls" (JArr []) ;;
  iv1c <- nearest_atm_iv calls1 spot ;;
  puts1 <- get j1 "puts" (JArr []) ;;
  iv1p <- nearest_atm_iv puts1 spot ;;
  calls2 <- get j2 "calls" (JArr []) ;;
  iv2c <- nearest_atm_iv calls2 spot ;;
  puts2 <- get j2 "puts" (JArr []) ;;
  iv2p <- nearest_atm_iv puts2 spot ;;
  iv1 <- combine_iv iv1c iv1p ;;
  iv2 <- combine_iv iv2c iv2p ;;
  ret (iv1, iv2).

Section Estimator.

(** The HTTP collaborator behind [yahoo_chain_for_date]: the parsed chain
    for a ticker and an expiry, or an exception. *)
Variable fetch : string -> Z -> exc json.

(** Lines 28-30; [urllib.parse.quote] accepts a [str] only. *)
Definition yahoo_chain_for_date (ticker : json) (exp_unix : Z) : exc json :=
  match ticker with
  | JStr s => fetch s exp_unix
  | _ => raise TypeError
  end.

(** Lines 69-70: [yahoo_chain_for_date(quote["symbol"], e)["optionChain"]["result"][0]["options"][0]]. *)
Definition bucket (quote : json) (e : Z) : exc json :=
  sym <- getitem quote "symbol" ;;
  c <- yahoo_chain_for_date sym e ;;
  options_of c.

(** Lines 61-74: [None] for the early [return None], else the reference
    time, the two expiries and their at-the-money volatilities. *)
Definition quotes (chain_json : json) (when : Q)
  : exc (option (Z * Z * Z * json * json)) :=
  res <- chain_result chain_json ;;
  quote <- getitem res "quote" ;;
  spot <- get quote "regularMarketPrice" JNull ;;
  if is_none spot then ret None
  else
    exp_unix <- get res "expirationDates" (JArr []) ;;
    let t_now := py_int when in
    es <- pick_expiries exp_unix t_now 30.0 ;;
    match es with
    | (Some e1, Some e2) =>
        if (e1 =? 0)%Z || (e2 =? 0)%Z then ret None
        else
          j1 <- bucket quote e1 ;;
          j2 <- bucket quote e2 ;;
          ivs <- atm_ivs j1 j2 spot ;;
          ret (Some (t_now, e1, e2, fst ivs, snd ivs))
    | _ => ret None
    end.

(** The body of the [try] block, lines 61-82. *)
Definition iv30_body (chain_json : json) (when : Q) : exc (option iv30) :=
  q <- quotes chain_json when ;;
  match q with
  | None => ret None
  | Some (t_now, e1, e2, iv1, iv2) => blend t_now e1 e2 iv1 iv2
  end.

(** Lines 59-84: [except Exception: return None]. *)
Definition iv30_from_yahoo (chain_json : json) (when : Q) : option iv30 :=
  match iv30_body chain_json when with
  | inr r => r
  | inl _ => None
  end.

End Estimator.

(** *** The estimate in the specification's words *)


(** The estimate for two volatilities at given year fractions. *)
Definition estimate (iv1 iv2 T1 T2 : Q) : R := sqrt (Q2R (interpolate iv1 iv2 T1 T2)).





(** *** The bracketing expiries in the specification's words *)

(** A list of integer time stamps as it arrives in [expirationDates]. *)
Definition ints (es : list Z) : json := JArr (map (fun e => JNum (inject_Z e)) es).

(** Strictly more than one day after the reference time. *)
Definition future (t_now e : Z) : Prop := (t_now + 86400 < e)%Z.

(** Time to expiry in days. *)
Definition days_to (t_now e : Z) : Q := (inject_Z e - inject_Z t_now) / 86400.0.



(** *** A sample chain *)

Definition option_row (strike iv : json) : json :=
  JObj [("strike"%string, strike); ("impliedVolatility"%string, iv)].

Definition sample_bucket (calls puts : list json) : json :=
  JObj [("optionChain"%string,
         JObj [("result"%string,
                JArr [JObj [("options"%string,
                             JArr [JObj [("calls"%string, JArr calls);
                                         ("puts"%string, JArr puts)]])]])])].

Definition sample_chain (spot : json) (expirationDates : list Z) : json :=
  JObj [("optionChain"%string,
         JObj [("result"%string,
                JArr [JObj [("quote"%string,
                             JObj [("symbol"%string, JStr "ACME");
                                   ("regularMarketPrice"%string, spot)]);
                            ("expirationDates"%string, ints expirationDates)]])])].

(** Quotes for 2023-12-08, one call with a zero volatility for 2023-12-22,
    and an HTTP error for any other expiry. *)
Definition fetch_one (ticker : string) (e : Z) : exc json :=
  if (e =? 1701993600)%Z then
    ret (sample_bucket
           [option_row (JNum 95) (JNum 0.31); option_row (JNum 100) (JNum 0.30);
            option_row (JNum 105) JNull]
           [option_row (JNum 100) (JNum 0.32)])
  else if (e =? 1703203200)%Z then
    ret (sample_bucket [option_row (JNum 100) (JNum 0)] [])
  else raise (OtherError "HTTP Error 404: Not Found").

(** Quotes for both expiries. *)
Definition fetch_both (ticker : string) (e : Z) : exc json :=
  if (e =? 1703203200)%Z then
    ret (sample_bucket [option_row (JNum 100) (JNum 0.28)] [])
  else fetch_one ticker e.

(** A collaborator that always fails. *)
Definition fetch_down (ticker : string) (e : Z) : exc json :=
  raise (OtherError "timed out").

(** ** [pick_expiries] on binary64 floats *)

(** The main model computes [(e - t_now_unix)/86400.0] and [int(d*86400)]
    exactly.  The program computes them in IEEE 754 binary64, where the
    product [d*86400] can fall just below the integer it came from, so that
    [int] truncates it to one second less.  This module embeds [pick_expiries]
    on a list of integer time stamps with the kernel's binary64 floats, whose
    operations are the correctly rounded ones Python uses. *)
Module Binary64.

Import PrimFloat.

(** [float(n)], for the integers a 63-bit word holds. *)
Definition of_int (n : Z) : option float :=
  if ((0 <=? n) && (n <? 2 ^ 63))%Z then Some (of_uint63 (Uint63.of_Z n))
  else if ((- 2 ^ 63 <? n) && (n <? 0))%Z then Some (- of_uint63 (Uint63.of_Z (- n)))%float
  else None.

(** [int(f)]: truncation toward zero; [None] where Python raises
    (infinities and NaN). *)
Definition to_int (f : float) : option Z :=
  match FloatOps.Prim2SF f with
  | SpecFloat.S754_zero _ => Some 0%Z
  | SpecFloat.S754_finite s m e =>
      let a := if (0 <=? e)%Z then Z.shiftl (Zpos m) e else Z.shiftr (Zpos m) (- e) in
      Some (if s then (- a)%Z else a)
  | _ => None
  end.

(** [(e - t_now_unix)/86400.0]. *)
Definition days (e t_now_unix : Z) : option float :=
  option_map (fun x => x / 86400)%float (of_int (e - t_now_unix)).

(** [t_now_unix + int(d*86400)]. *)
Definition to_unix (t_now_unix : Z) (d : float) : option Z :=
  option_map (fun n => (t_now_unix + n)%Z) (to_int (d * 86400)%float).

Fixpoint future_days (es : list Z) (t_now_unix : Z) : option (list float) :=
  match es with
  | [] => Some []
  | e :: es' =>
      match future_days es' t_now_unix with
      | Some ds =>
          if (t_now_unix + 86400 <? e)%Z
          then option_map (fun d => d :: ds) (days e t_now_unix)
          else Some ds
      | None => None
      end
  end.

Definition pick_expiries (exp_unix : list Z) (t_now_unix : Z) (target_days : float)
  : option (option Z * option Z) :=
  match future_days exp_unix t_now_unix with
  | Some [] => Some (None, None)
  | Some (d :: ds) =>
      let days := d :: ds in
      let below := filter (fun d => d <=? target_days)%float days in
      let above := filter (fun d => target_days <=? d)%float days in
      match (if nonempty below then last below nan else hd nan above),
            (if nonempty above then hd nan above else last below nan) with
      | d1, d2 =>
          match to_unix t_now_unix d1, to_unix t_now_unix d2 with
          | Some e1, Some e2 => Some (Some e1, Some e2)
          | _, _ => None
          end
      end
  | None => None
  end.

(** The default [target_days=30.0]. *)
Definition target_days : float := 30.

End Binary64.

(** ** The rest of the program *)

(** *** Rows of an option chain *)

(** [opt.get(k)] on a row that is a dictionary. *)
Definition field (k : string) (opt : json) : json :=
  match opt with
  | JObj fields =>
      match lookup k fields with
      | Some v => v
      | None => JNull
      end
  | _ => JNull
  end.


Definition is_number (v : json) : bool :=
  match v with
  | JNum _ | JBool _ => true
  | _ => false
  end.




(** *** Daily bars: [yahoo_hist_day] and [gapfill_and_clv] on parsed JSON *)

(** Lines 37-38: what [yahoo_hist_day] makes of the payload [j] that
    [http_json] returned. *)
Definition hist_bar (j : json) : exc json :=
  chart <- getitem j "chart" ;;
  rs <- getitem chart "result" ;;
  r <- getitem0 rs ;;
  ind <- getitem r "indicators" ;;
  qs <- getitem ind "quote" ;;
  q <- getitem0 qs ;;
  os <- getitem q "open" ;;
  o <- getitem0 os ;;
  hs <- getitem q "high" ;;
  h <- getitem0 hs ;;
  ls <- getitem q "low" ;;
  l <- getitem0 ls ;;
  cs <- getitem q "close" ;;
  c <- getitem0 cs ;;
  vs <- getitem q "volume" ;;
  v <- getitem0 vs ;;
  ret (JObj [("open"%string, o); ("high"%string, h); ("low"%string, l);
             ("close"%string, c); ("volume"%string, v)]).

(** Lines 86-92 on the values as they come out of the payload: a price
    that is not a number raises [TypeError] where the program first does
    arithmetic or an order comparison with it. *)
Definition gapfill_and_clv_json (prev_close d0 : json) : exc (Q * Q) :=
  o <- getitem d0 "open" ;;
  h <- getitem d0 "high" ;;
  l <- getitem d0 "low" ;;
  c <- getitem d0 "close" ;;
  oq <- number o ;;
  pq <- number prev_close ;;
  let gap := if Qle_bool pq oq then oq - pq else pq - oq in
  retr <- (if Qle_bool pq oq
           then lq <- number l ;; ret (oq - lq)
           else hq <- number h ;; ret (hq - oq)) ;;
  let gapFillPct :=
    if Qltb 1e-9 gap then py_min 150.0 (100.0 * (retr / gap)) else 0.0 in
  hq <- number h ;;
  lq <- number l ;;
  clv <- (if Qltb lq hq
          then cq <- number c ;; ret ((2 * cq - hq - lq) / (hq - lq))
          else ret 0.0) ;;
  ret (py_round gapFillPct 2, py_round clv 3).


Section Realized.

(** The HTTP collaborator behind [yahoo_hist_day]: the parsed chart payload
    for a ticker and a day (a day is the ordinal of its date), or an
    exception. *)
Variable hist : string -> Z -> exc json.

(** Lines 32-38. *)
Definition yahoo_hist_day (ticker : string) (day : Z) : exc json :=
  j <- hist ticker day ;;
  hist_bar j.

(** Lines 145-150 of [main]: [(gapFillPct, clv)], both [None] unless the
    post capture runs and nothing raises. *)
Definition realized (capture_post : bool) (tkr : string) (today : Z)
  : option Q * option Q :=
  if capture_post then
    match (d0 <- yahoo_hist_day tkr today ;;
           dm1 <- yahoo_hist_day tkr (today - 1) ;;
           pc <- getitem dm1 "close" ;;
           gapfill_and_clv_json pc d0) with
    | inr (g, c) => (Some g, Some c)
    | inl _ => (None, None)
    end
  else (None, None).

End Realized.

(** The bar reflected about the previous close: a gap up becomes a gap
    down of the same size. *)
Definition mirror (prev_close : Q) (d0 : bar) : bar :=
  Bar (2 * prev_close - open d0) (2 * prev_close - low d0)
      (2 * prev_close - high d0) (2 * prev_close - close d0).


(** *** The per-ticker decisions of [main] *)

(** [now.strftime("%H:%M")]. *)
Definition two_digits (n : nat) : string :=
  String (ascii_of_nat (48 + n / 10))
    (String (ascii_of_nat (48 + n mod 10)) EmptyString).

Definition strftime_HM (hour minute : nat) : string :=
  (two_digits hour ++ ":" ++ two_digits minute)%string.

(** Lines 116-117. *)
Definition phase_of (hour minute : nat) : string :=
  if String.prefix "19:55" (strftime_HM hour minute) then "pre"%string else "post"%string.

(** Lines 122-124; a date is its ordinal, so [today + 1] is the next day. *)
Definition capture_pre (phase klass : string) (rep_date today : Z) : bool :=
  (String.eqb phase "pre" && String.eqb klass "AMC" && (rep_date =? today)%Z)
  || (String.eqb phase "post" && String.eqb klass "BMO" && (rep_date =? today + 1)%Z).

Definition capture_post (phase : string) (rep_date today : Z) : bool :=
  String.eqb phase "post" && (rep_date =? today)%Z.

(** Line 143: [round((iv_post-iv_pre)/iv_pre*100.0,2)] when both values are
    truthy, else [None]. *)
Definition iv_crush (iv_pre iv_post : option Q) : option Q :=
  match iv_pre, iv_post with
  | Some a, Some b =>
      if negb (Qeq_bool a 0) && negb (Qeq_bool b 0)
      then Some (py_round ((b - a) / a * 100.0) 2)
      else None
  | _, _ => None
  end.

(** Lines 153-155: [continuationFriendly]. *)
Definition continuation (clv gapFillPct : option Q) : option bool :=
  match clv, gapFillPct with
  | Some c, Some g => Some (Qle_bool 0 c && Qle_bool g 33.0)
  | _, _ => None
  end.

(** *** Checking the rebuilt time stamp over a range of offsets *)

(** In binary64, [int((n/86400.0)*86400)] is [n] or [n - 1], and the time to
    expiry in days compares with [30.0] as [n] compares with 30 days. *)
Definition rebuilt_ok (n : Z) : bool :=
  match Binary64.days n 0 with
  | Some d =>
      match Binary64.to_unix 0 d with
      | Some m => ((m =? n)%Z || (m =? n - 1)%Z)
                  && Bool.eqb (PrimFloat.leb d Binary64.target_days) (n <=? 2592000)%Z
                  && Bool.eqb (PrimFloat.leb Binary64.target_days d) (2592000 <=? n)%Z
      | None => false
      end
  | None => false
  end.

(** [int(((86400*k)/86400.0)*86400)] is [86400*k]. *)
Definition whole_day_ok (k : Z) : bool :=
  match Binary64.days (86400 * k) 0 with
  | Some d =>
      match Binary64.to_unix 0 d with
      | Some m => (m =? 86400 * k)%Z
      | None => false
      end
  | None => false
  end.

Fixpoint all_from (f : Z -> bool) (lo : Z) (count : nat) : bool :=
  match count with
  | O => true
  | S count' => if f lo then all_from f (lo + 1) count' else false
  end.

(** ** Basic facts about the numeric built-ins *)

Lemma Qltb_lt (x y : Q) : Qltb x y = true <-> x < y.
Proof.
  unfold Qltb. rewrite negb_true_iff.
  split; intro H.
  - apply Qnot_le_lt. intro Hle. apply Qle_bool_iff in Hle. congruence.
  - destruct (Qle_bool y x) eqn:E; [|reflexivity].
    apply Qle_bool_iff in E. exfalso. apply (Qlt_not_le _ _ H E).
Qed.

Lemma Qltb_ge (x y : Q) : Qltb x y = false <-> y <= x.
Proof.
  unfold Qltb. rewrite negb_false_iff. apply Qle_bool_iff.
Qed.

Lemma Qle_bool_gt (x y : Q) : Qle_bool x y = false <-> y < x.
Proof.
  rewrite <- Qltb_lt. unfold Qltb.
  destruct (Qle_bool x y); simpl; intuition congruence.
Qed.

#[global] Instance Qltb_comp : Proper (Qeq ==> Qeq ==> eq) Qltb.
Proof. intros x x' Hx y y' Hy. unfold Qltb. now rewrite Hx, Hy. Qed.

Lemma py_min_spec (a b : Q) : py_min a b == Qmin a b.
Proof.
  unfold py_min. destruct (Qltb b a) eqn:E.
  - apply Qltb_lt in E. symmetry. apply Q.min_r. now apply Qlt_le_weak.
  - apply Qltb_ge in E. symmetry. now apply Q.min_l.
Qed.

Lemma py_max_spec (a b : Q) : py_max a b == Qmax a b.
Proof.
  unfold py_max. destruct (Qltb a b) eqn:E.
  - apply Qltb_lt in E. symmetry. apply Q.max_r. now apply Qlt_le_weak.
  - apply Qltb_ge in E. symmetry. now apply Q.max_l.
Qed.

#[global] Instance py_min_comp : Proper (Qeq ==> Qeq ==> Qeq) py_min.
Proof. intros a a' Ha b b' Hb. now rewrite !py_min_spec, Ha, Hb. Qed.






Lemma round_half_even_comp (x y : Q) : x == y -> round_half_even x = round_half_even y.
Proof.
  intro E. unfold round_half_even. cbv zeta.
  rewrite (Qfloor_comp _ _ E).
  assert (E' : x - inject_Z (Qfloor y) == y - inject_Z (Qfloor y)) by lra.
  rewrite (Qltb_comp _ _ E' _ _ (Qeq_refl (1 # 2))).
  now rewrite (Qltb_comp _ _ (Qeq_refl (1 # 2)) _ _ E').
Qed.

(** An integer below (above) [y] is below (above) the rounding of [y]. *)
Lemma round_half_even_ge (y : Q) (m : Z) :
  inject_Z m <= y -> (m <= round_half_even y)%Z.
Proof.
  intro H. assert (Hm : (m <= Qfloor y)%Z).
  { rewrite <- (Qfloor_Z m). now apply Qfloor_resp_le. }
  unfold round_half_even.
  repeat match goal with |- context [if ?b then _ else _] => destruct b end; lia.
Qed.

Lemma round_half_even_le (y : Q) (m : Z) :
  y <= inject_Z m -> (round_half_even y <= m)%Z.
Proof.
  intro H. pose proof (Qfloor_le y) as Hf.
  assert (Hm : (Qfloor y <= m)%Z).
  { rewrite <- (Qfloor_Z m). now apply Qfloor_resp_le. }
  unfold round_half_even.
  destruct (Qltb (y - inject_Z (Qfloor y)) (1 # 2)) eqn:E1; [exact Hm|].
  apply Qltb_ge in E1.
  assert (Hlt : (Qfloor y < m)%Z).
  { rewrite Zlt_Qlt. lra. }
  repeat match goal with |- context [if ?b then _ else _] => destruct b end; lia.
Qed.

Lemma scale_pos (ndigits : nat) : 0 < inject_Z (10 ^ Z.of_nat ndigits).
Proof.
  change 0 with (inject_Z 0). rewrite <- Zlt_Qlt.
  apply Z.pow_pos_nonneg; lia.
Qed.

#[global] Instance py_round_comp : Proper (Qeq ==> eq ==> Qeq) py_round.
Proof.
  intros x y E n n' <-. unfold py_round.
  assert (E' : x * inject_Z (10 ^ Z.of_nat n) == y * inject_Z (10 ^ Z.of_nat n))
    by now rewrite E.
  now rewrite (round_half_even_comp _ _ E').
Qed.

(** Rounding does not cross an integer. *)
Lemma py_round_between (x : Q) (ndigits : nat) (lo hi : Z) :
  inject_Z lo <= x <= inject_Z hi ->
  inject_Z lo <= py_round x ndigits <= inject_Z hi.
Proof.
  intros [Hlo Hhi]. unfold py_round.
  pose proof (scale_pos ndigits) as Hs.
  set (s := (10 ^ Z.of_nat ndigits)%Z) in *.
  assert (H1 : (lo * s <= round_half_even (x * inject_Z s))%Z).
  { apply round_half_even_ge. rewrite inject_Z_mult. nra. }
  assert (H2 : (round_half_even (x * inject_Z s) <= hi * s)%Z).
  { apply round_half_even_le. rewrite inject_Z_mult. nra. }
  rewrite Zle_Qle, inject_Z_mult in H1, H2.
  split.
  - apply Qle_shift_div_l; [exact Hs | exact H1].
  - apply Qle_shift_div_r; [exact Hs | exact H2].
Qed.

Lemma py_round_inject_Z (n : Z) (ndigits : nat) :
  py_round (inject_Z n) ndigits == inject_Z n.
Proof.
  apply Qle_antisym; apply (py_round_between (inject_Z n) ndigits n n); split; apply Qle_refl.
Qed.

(** ** DriftScorer *)

(** Every run of [pead_score]: which inputs are present and which way each
    test goes. *)
Ltac score_cases clv gapFillPct ivCrush :=
  destruct clv as [?c|]; [destruct (Qle_bool 0 c)|];
  (destruct gapFillPct as [?g|]; [destruct (Qle_bool g 33.0)|]);
  (destruct ivCrush as [?x|];
   [destruct (Qle_bool (-40) x && Qle_bool x (-5)); [|destruct (Qltb x (-50))]|]).

Ltac decide_numerals :=
  vm_compute; repeat split; try discriminate; try reflexivity.

(** C9. For a present [ivCrush] value [x], the scorer adds exactly [+1.0] to
    the score when [-40 <= x <= -5] (both ends included), exactly [-0.5] when
    [x < -50], and nothing otherwise; [-40] and [-5] score [+1.0], [-4.9]
    scores [0] and [-50.1] scores [-0.5]. *)
Theorem ivcrush_adjustment (clv gapFillPct : option Q) (x : Q) :
  let base := pead_score clv gapFillPct None in
  let score := pead_score clv gapFillPct (Some x) in
  (-40 <= x <= -5 -> score = base + 1.0) /\
  (x < -50 -> score = base - 0.5) /\
  (~ -40 <= x <= -5 -> ~ x < -50 -> score = base) /\
  pead_score None None (Some (-40)) == 1.0 /\
  pead_score None None (Some (-5)) == 1.0 /\
  pead_score None None (Some (-4.9)) == 0 /\
  pead_score None None (Some (-50.1)) == -0.5.
Proof.
  cbv zeta. unfold pead_score.
  destruct (Qle_bool (-40) x && Qle_bool x (-5)) eqn:Band.
  - apply andb_true_iff in Band. destruct Band as [B1 B2].
    apply Qle_bool_iff in B1, B2.
    repeat split; try reflexivity; intros; try lra; tauto.
  - assert (Hout : ~ -40 <= x <= -5).
    { intros [H1 H2]. apply Qle_bool_iff in H1, H2.
      rewrite H1, H2 in Band. discriminate. }
    destruct (Qltb x (-50)) eqn:Low.
    + apply Qltb_lt in Low.
      repeat split; try reflexivity; intros; tauto.
    + apply Qltb_ge in Low.
      repeat split; try reflexivity; intros; try tauto; lra.
Qed.

(** C10. Whatever inputs are present, the score lies in [[-1.5, 3.0]], so
    [2.0*score] lies in [[-3.0, 6.0]] and the clamp to [[-8, 12]] returns it
    unchanged; the returned [peadPct] is that number, [rangePct] is the pair
    of integers [peadPct - 3] and [peadPct + 3], and the confidence
    [0.35 + 0.1*score] lies in [[0.2, 0.65]], so its clamp to [[0.1, 0.8]]
    returns the rounded value unchanged. *)
Theorem simple_pead_ranges (clv gapFillPct ivCrush : option Q) :
  let score := pead_score clv gapFillPct ivCrush in
  let r := simple_pead clv gapFillPct ivCrush in
  -1.5 <= score <= 3.0 /\
  -3.0 <= 2.0 * score <= 6.0 /\
  py_max (-8.0) (py_min 12.0 (2.0 * score)) = 2.0 * score /\
  peadPct r == 2.0 * score /\
  -3.0 <= peadPct r <= 6.0 /\
  (exists a b : Z,
      rangePct r = [a; b] /\
      inject_Z a == peadPct r - 3 /\ inject_Z b == peadPct r + 3) /\
  0.2 <= 0.35 + 0.1 * score <= 0.65 /\
  confidence r = py_round (0.35 + 0.1 * score) 2 /\
  0.2 <= confidence r <= 0.65.
Proof.
  cbv zeta. unfold simple_pead, peadPct, rangePct, confidence, pead_score.
  score_cases clv gapFillPct ivCrush;
    (repeat split; try (do 2 eexists); decide_numerals).
Qed.

(** ** Gap-fill and close-location value *)









(** ** The exception monad *)

Lemma bind_ret {A B : Type} (a : A) (k : A -> exc B) : bind (ret a) k = k a.
Proof. reflexivity. Qed.

Lemma bind_returns {A B : Type} (c : exc A) (k : A -> exc B) (b : B) :
  bind c k = ret b -> exists a, c = ret a /\ k a = ret b.
Proof.
  destruct c as [e|a]; [discriminate|]. intro H. now exists a.
Qed.

(** ** Bracketing expiries *)

Lemma Qltb_inject_Z (a b : Z) : Qltb (inject_Z a) (inject_Z b) = (a <? b)%Z.
Proof.
  apply eq_true_iff_eq. rewrite Qltb_lt, Z.ltb_lt, Zlt_Qlt. reflexivity.
Qed.





Lemma future_days_ints (es : list Z) (t_now : Z) :
  future_days (map (fun e => JNum (inject_Z e)) es) t_now
  = ret (map (days_to t_now) (filter (fun e => t_now + 86400 <? e)%Z es)).
Proof.
  induction es as [|e es IH]; [reflexivity|].
  simpl. rewrite IH. simpl. rewrite Qltb_inject_Z.
  destruct (t_now + 86400 <? e)%Z; reflexivity.
Qed.
















(** The binary64 run of the same call: the first time stamp comes back one
    second early, and so does a lone expiry 1388800 seconds ahead. *)
Lemma binary64_pick_expiries_one_second_early :
  Binary64.pick_expiries [1701993600; 1703203200]%Z 1700000000 Binary64.target_days
  = Some (Some 1701993599%Z, Some 1703203200%Z) /\
  Binary64.pick_expiries [1701388800]%Z 1700000000 Binary64.target_days
  = Some (Some 1701388799%Z, Some 1701388799%Z).
Proof. split; vm_compute; reflexivity. Qed.


(** ** IV30Estimator: early exits and faults *)

Lemma is_none_false (v : json) : v <> JNull -> is_none v = false.
Proof. destruct v; [congruence| | | | |]; reflexivity. Qed.


Lemma pick_expiries_no_future (es : list Z) (t_now : Z) :
  (forall e, In e es -> ~ future t_now e) ->
  pick_expiries (ints es) t_now 30.0 = ret (None, None).
Proof.
  intro H. unfold pick_expiries, ints. simpl iter. rewrite bind_ret.
  rewrite future_days_ints, bind_ret.
  assert (E : filter (fun e => t_now + 86400 <? e)%Z es = []).
  { induction es as [|e es IH]; [reflexivity|]. simpl.
    destruct (t_now + 86400 <? e)%Z eqn:Hlt.
    - exfalso. apply (H e); [now left|]. now apply Z.ltb_lt.
    - apply IH. intros x Hx. apply H. now right. }
  rewrite E. reflexivity.
Qed.

(** C5. Whatever the chain is and whatever the collaborator does, an
    exception raised inside [iv30_from_yahoo] becomes [None]; so does a chain
    whose spot price is missing, a chain with no expiry more than one day
    ahead, and a collaborator that fails on every request. *)
Theorem estimator_never_raises (fetch : string -> Z -> exc json) (chain_json : json) (when : Q) :
  (forall e, iv30_body fetch chain_json when = raise e ->
             iv30_from_yahoo fetch chain_json when = None) /\
  (forall res quote,
      chain_result chain_json = ret res -> getitem res "quote" = ret quote ->
      get quote "regularMarketPrice" JNull = ret JNull ->
      iv30_from_yahoo fetch chain_json when = None) /\
  (forall res quote spot es,
      chain_result chain_json = ret res -> getitem res "quote" = ret quote ->
      get quote "regularMarketPrice" JNull = ret spot ->
      get res "expirationDates" (JArr []) = ret (ints es) ->
      (forall e, In e es -> ~ future (py_int when) e) ->
      iv30_from_yahoo fetch chain_json when = None) /\
  ((forall ticker e, exists err, fetch ticker e = raise err) ->
   iv30_from_yahoo fetch chain_json when = None).
Proof.
  unfold iv30_from_yahoo, iv30_body.
  split; [|split; [|split]].
  - intros e H. now rewrite H.
  - intros res quote Hres Hquote Hspot. unfold quotes.
    now rewrite Hres, bind_ret, Hquote, bind_ret, Hspot, bind_ret.
  - intros res quote spot es Hres Hquote Hspot Hexp Hnone. unfold quotes.
    rewrite Hres, bind_ret, Hquote, bind_ret, Hspot, bind_ret.
    destruct (is_none spot); [reflexivity|].
    now rewrite Hexp, bind_ret, (pick_expiries_no_future _ _ Hnone), bind_ret.
  - intro Hdown. unfold quotes.
    destruct (chain_result chain_json) as [?|res]; [reflexivity|]. rewrite bind_ret.
    destruct (getitem res "quote") as [?|quote]; [reflexivity|]. rewrite bind_ret.
    destruct (get quote "regularMarketPrice" JNull) as [?|spot]; [reflexivity|].
    rewrite bind_ret.
    destruct (is_none spot); [reflexivity|].
    destruct (get res "expirationDates" (JArr [])) as [?|exp_unix]; [reflexivity|].
    rewrite bind_ret.
    destruct (pick_expiries exp_unix (py_int when) 30.0) as [?|[[e1|] [e2|]]];
      try reflexivity.
    rewrite bind_ret.
    destruct ((e1 =? 0)%Z || (e2 =? 0)%Z); [reflexivity|].
    unfold bucket at 1.
    destruct (getitem quote "symbol") as [?|sym]; [reflexivity|]. rewrite bind_ret.
    destruct sym as [| | |s| |]; try reflexivity. simpl yahoo_chain_for_date.
    destruct (Hdown s e1) as [err ->]. reflexivity.
Qed.

Lemma estimator_never_raises_witness :
  iv30_from_yahoo fetch_both (JArr []) 1700000000.5 = None /\
  iv30_from_yahoo fetch_both (sample_chain JNull [1701993600; 1703203200]%Z) 1700000000.5 = None /\
  iv30_from_yahoo fetch_both (sample_chain (JNum 100) [1700000000; 1700086400]%Z) 1700000000.5 = None /\
  iv30_from_yahoo fetch_down (sample_chain (JNum 100) [1701993600; 1703203200]%Z) 1700000000.5 = None.
Proof.
  split; [|split; [|split]].
  - destruct (estimator_never_raises fetch_both (JArr []) 1700000000.5) as (H & _).
    apply (H TypeError). reflexivity.
  - destruct (estimator_never_raises fetch_both
                (sample_chain JNull [1701993600; 1703203200]%Z) 1700000000.5)
      as (_ & H & _).
    eapply H; reflexivity.
  - destruct (estimator_never_raises fetch_both
                (sample_chain (JNum 100) [1700000000; 1700086400]%Z) 1700000000.5)
      as (_ & _ & H & _).
    eapply H; try reflexivity.
    intros e [<-|[<-|[]]]; vm_compute; discriminate.
  - destruct (estimator_never_raises fetch_down
                (sample_chain (JNum 100) [1701993600; 1703203200]%Z) 1700000000.5)
      as (_ & _ & _ & H).
    apply H. intros ticker e. now exists (OtherError "timed out").
Defined.



(** ** From rationals to reals *)

Lemma Q2R_py_max (x y : Q) : Q2R (py_max x y) = Rmax (Q2R x) (Q2R y).
Proof.
  unfold py_max. destruct (Qltb x y) eqn:E.
  - apply Qltb_lt, Qlt_Rlt in E. rewrite Rmax_right; lra.
  - apply Qltb_ge, Qle_Rle in E. rewrite Rmax_left; lra.
Qed.

Lemma Q2R_Qabs (x : Q) : Q2R (Qabs x) = Rabs (Q2R x).
Proof.
  destruct (Qlt_le_dec x 0) as [H|H].
  - rewrite (Qeq_eqR _ _ (Qabs_neg x (Qlt_le_weak _ _ H))), Q2R_opp.
    apply Qlt_Rlt in H. rewrite RMicromega.Q2R_0 in H.
    rewrite Rabs_left; lra.
  - rewrite (Qeq_eqR _ _ (Qabs_pos x H)).
    apply Qle_Rle in H. rewrite RMicromega.Q2R_0 in H.
    rewrite Rabs_right; lra.
Qed.


Lemma Q2R_target : Q2R (30.0 / 365.25) = (30 / 365.25)%R.
Proof. unfold Q2R. simpl. lra. Qed.


Lemma Q2R_alpha (T1 T2 : Q) :
  Q2R (alpha T1 T2)
  = (if Rle_dec (Rabs (Q2R T2 - Q2R T1)) 1e-9 then 0.5
     else (30 / 365.25 - Q2R T1) / (Q2R T2 - Q2R T1))%R.
Proof.
  unfold alpha. cbv zeta.
  destruct (Qltb 1e-9 (Qabs (T2 - T1))) eqn:E.
  - apply Qltb_lt in E.
    assert (Hnz : ~ T2 - T1 == 0).
    { intro Z0. rewrite Z0 in E. revert E. apply Qle_not_lt. discriminate. }
    apply Qlt_Rlt in E. rewrite Q2R_Qabs, Q2R_minus in E.
    assert (E9 : Q2R 1e-9 = 1e-9%R) by (unfold Q2R; simpl; lra).
    destruct (Rle_dec _ _) as [Hle|_]; [lra|].
    now rewrite Q2R_div, !Q2R_minus, Q2R_target.
  - apply Qltb_ge, Qle_Rle in E. rewrite Q2R_Qabs, Q2R_minus in E.
    assert (E9 : Q2R 1e-9 = 1e-9%R) by (unfold Q2R; simpl; lra).
    destruct (Rle_dec _ _) as [_|Hn]; [|lra].
    unfold Q2R; simpl; lra.
Qed.

Lemma Q2R_interpolate (iv1 iv2 T1 T2 : Q) :
  Q2R (interpolate iv1 iv2 T1 T2)
  = Rmax 1e-10
      ((Q2R iv1 * Q2R iv1 * Q2R T1
        + (Q2R iv2 * Q2R iv2 * Q2R T2 - Q2R iv1 * Q2R iv1 * Q2R T1) * Q2R (alpha T1 T2))
       / (30 / 365.25))%R.
Proof.
  unfold interpolate. cbv zeta.
  rewrite Q2R_py_max, (Q2R_div (_ + _)) by discriminate.
  repeat first [rewrite Q2R_minus | rewrite Q2R_plus | rewrite Q2R_mult].
  rewrite Q2R_target.
  f_equal; unfold Q2R; simpl; lra.
Qed.

(** ** IV30Estimator: the interpolated estimate *)



(** ** Interpolation in variance-time *)








(** The year fractions the program computes from integer time stamps are
    positive, and on either side of the target they are more than [1e-9]
    apart. *)
Lemma year_fractions_apart (e1 e2 t_now : Z) :
  let T1 := year_fraction e1 t_now in
  let T2 := year_fraction e2 t_now in
  0 < T1 /\ (T1 < 30.0 / 365.25 -> 30.0 / 365.25 < T2 -> 1e-9 < T2 - T1).
Proof.
  cbv zeta. unfold year_fraction. rewrite !py_max_spec.
  change 1e-6 with (1 # 1000000). change 1e-9 with (1 # 1000000000).
  assert (ETt : 30.0 / 365.25 == 3000 # 36525) by reflexivity. rewrite ETt.
  set (n1 := (e1 - t_now)%Z). set (n2 := (e2 - t_now)%Z).
  set (x1 := inject_Z n1 / 31557600.0). set (x2 := inject_Z n2 / 31557600.0).
  assert (E1 : inject_Z n1 == x1 * 31557600.0) by (unfold x1; field).
  assert (E2 : inject_Z n2 == x2 * 31557600.0) by (unfold x2; field).
  pose proof (Q.le_max_l (1 # 1000000) x1) as F1.
  pose proof (Q.le_max_r (1 # 1000000) x1) as G1.
  pose proof (Q.le_max_r (1 # 1000000) x2) as G2.
  split; [lra|].
  intros H1 H2.
  assert (Hs1 : (n1 <= 2591999)%Z).
  { assert (Hz : (n1 < 2592000)%Z); [|lia].
    rewrite Zlt_Qlt. change (inject_Z 2592000) with 2592000. lra. }
  assert (Hs2 : (2592001 <= n2)%Z).
  { assert (Hz : (2592000 < n2)%Z); [|lia].
    rewrite Zlt_Qlt. change (inject_Z 2592000) with 2592000.
    destruct (Q.max_spec (1 # 1000000) x2) as [[_ E]|[_ E]]; rewrite E in H2; lra. }
  rewrite Zle_Qle in Hs1, Hs2.
  change (inject_Z 2591999) with 2591999 in Hs1.
  change (inject_Z 2592001) with 2592001 in Hs2.
  destruct (Q.max_spec (1 # 1000000) x1) as [[_ E]|[_ E]]; rewrite E; lra.
Qed.






(** ** IV30Estimator: no silent zero *)

(** Splits a successful [bind] into its two successful halves. *)
Ltac invert_bind H :=
  let a := fresh "a" in
  let Ha := fresh "Ha" in
  apply bind_returns in H; destruct H as (a & Ha & H).

Lemma foldM_invariant {A B : Type} (P : A -> Prop) (f : A -> B -> exc A) (l : list B) :
  (forall b a a', In b l -> P a -> f a b = ret a' -> P a') ->
  forall a a', P a -> foldM f a l = ret a' -> P a'.
Proof.
  induction l as [|b l IH]; intros Hstep a a' Ha Hfold.
  - injection Hfold as <-. exact Ha.
  - simpl in Hfold. invert_bind Hfold.
    apply (IH (fun b' x x' Hb => Hstep b' x x' (or_intror Hb)) a0 a'); [|exact Hfold].
    apply (Hstep b a a0); [now left | exact Ha | exact Ha0].
Qed.

(** A row whose volatility is [None] or [0] never becomes the best one. *)
Lemma atm_step_excludes (spot : json) (st st' : json * Q) (opt : json) :
  atm_step spot st opt = ret st' ->
  st' = st \/
  (get opt "impliedVolatility" JNull = ret (fst st') /\ in_none_zero (fst st') = false).
Proof.
  unfold atm_step. intro H.
  invert_bind H. rename a into k. invert_bind H. rename a into iv.
  destruct (is_none k || in_none_zero iv) eqn:Eskip.
  - injection H as <-. now left.
  - apply orb_false_iff in Eskip. destruct Eskip as [_ Eiv].
    invert_bind H. invert_bind H.
    destruct (Qltb _ _); injection H as <-; [right|left]; auto.
Qed.

Lemma nearest_atm_iv_excludes (rows spot v : json) :
  nearest_atm_iv rows spot = ret v ->
  v = JNull \/
  (in_none_zero v = false /\
   exists opts opt, iter rows = ret opts /\ In opt opts /\
                    get opt "impliedVolatility" JNull = ret v).
Proof.
  unfold nearest_atm_iv. intro H.
  invert_bind H. rename a into opts. invert_bind H. rename a into st.
  injection H as <-.
  revert Ha0.
  apply (foldM_invariant
           (fun s => fst s = JNull \/
                     (in_none_zero (fst s) = false /\
                      exists opts' opt, iter rows = ret opts' /\ In opt opts' /\
                                        get opt "impliedVolatility" JNull = ret (fst s)))
           (atm_step spot) opts).
  - intros opt s s' Hin Hs Hstep.
    destruct (atm_step_excludes _ _ _ _ Hstep) as [->|[Hget Hnz]]; [exact Hs|].
    right. split; [exact Hnz|]. now exists opts, opt.
  - now left.
Qed.













(** * Further properties of the program *)

(** ** The per-ticker decisions of [main] *)

(** The run is a pre-market run exactly at 19:55. *)
Theorem phase_pre_iff (hour minute : nat) :
  (hour < 24)%nat -> (minute < 60)%nat ->
  (phase_of hour minute = "pre"%string <-> hour = 19%nat /\ minute = 55%nat) /\
  (phase_of hour minute = "post"%string <-> ~ (hour = 19%nat /\ minute = 55%nat)).
Proof.
  intros Hh Hm.
  assert (E : phase_of hour minute
              = if (Nat.eqb hour 19 && Nat.eqb minute 55)%bool
                then "pre"%string else "post"%string).
  { do 24 (destruct hour as [|hour];
           [do 60 (destruct minute as [|minute]; [reflexivity|]); lia|]).
    lia. }
  rewrite E. clear E.
  destruct (Nat.eqb_spec hour 19) as [E1|E1];
    destruct (Nat.eqb_spec minute 55) as [E2|E2]; simpl;
    split; split; intros; try discriminate; try tauto.
Qed.

Lemma phase_pre_iff_witness :
  phase_of 19 55 = "pre"%string /\ phase_of 19 56 = "post"%string.
Proof.
  split.
  - apply (phase_pre_iff 19 55); [lia | lia | now split].
  - apply (phase_pre_iff 19 56); [lia | lia |]. intros [_ H]. discriminate H.
Defined.

(** No row is captured both as a pre and as a post snapshot in one run; a
    post capture happens only in a post run on the report date, and a pre
    capture only on the report date or the day before it. *)
Theorem capture_exclusive (phase klass : string) (rep_date today : Z) :
  capture_pre phase klass rep_date today && capture_post phase rep_date today = false /\
  (capture_post phase rep_date today = true -> phase = "post"%string /\ rep_date = today) /\
  (capture_pre phase klass rep_date today = true ->
   (phase = "pre"%string /\ klass = "AMC"%string /\ rep_date = today) \/
   (phase = "post"%string /\ klass = "BMO"%string /\ rep_date = (today + 1)%Z)).
Proof.
  unfold capture_pre, capture_post.
  destruct (String.eqb_spec phase "pre") as [Hpre|Hpre];
    destruct (String.eqb_spec phase "post") as [Hpost|Hpost];
    destruct (String.eqb_spec klass "AMC") as [Ha|Ha];
    destruct (String.eqb_spec klass "BMO") as [Hb|Hb];
    destruct (Z.eqb_spec rep_date today) as [Ht|Ht];
    destruct (Z.eqb_spec rep_date (today + 1)) as [Hn|Hn];
    simpl; repeat split; intros; try discriminate; try congruence; try lia; try tauto.
Qed.

(** The score is the sum of what each input contributes on its own. *)
Theorem pead_score_additive (clv gapFillPct ivCrush : option Q) :
  pead_score clv gapFillPct ivCrush
  == pead_score clv None None + pead_score None gapFillPct None
     + pead_score None None ivCrush.
Proof.
  unfold pead_score. score_cases clv gapFillPct ivCrush; reflexivity.
Qed.

(** A continuation-friendly day never scores below a drift of 3 and a
    confidence of 0.5, and a day that is not never scores above them. *)
Theorem continuation_separates (c g : Q) (ivCrush : option Q) :
  let r := simple_pead (Some c) (Some g) ivCrush in
  (continuation (Some c) (Some g) = Some true -> 3 <= peadPct r /\ 0.5 <= confidence r) /\
  (continuation (Some c) (Some g) = Some false -> peadPct r <= 3 /\ confidence r <= 0.5).
Proof.
  cbv zeta. unfold continuation, simple_pead, peadPct, confidence, pead_score.
  destruct (Qle_bool 0 c); destruct (Qle_bool g 33.0);
    (destruct ivCrush as [x|];
     [destruct (Qle_bool (-40) x && Qle_bool x (-5)); [|destruct (Qltb x (-50))]|]);
    simpl andb; split; intro H; try discriminate H; decide_numerals.
Qed.

Lemma positive_not_zero (a : Q) : 0 < a -> negb (Qeq_bool a 0) = true.
Proof.
  intro H. apply negb_true_iff. destruct (Qeq_bool a 0) eqn:E; [|reflexivity].
  apply Qeq_bool_eq in E. rewrite E in H. discriminate H.
Qed.

(** For two positive volatilities the crush is defined, is at least -100,
    has the sign of the change, and is 0 when nothing changed; a pre-event
    volatility of [None] or 0 gives no crush (and no division). *)
Theorem iv_crush_bounds (a b : Q) :
  0 < a -> 0 < b ->
  (exists x, iv_crush (Some a) (Some b) = Some x /\
             -100 <= x /\ (b <= a -> x <= 0) /\ (a <= b -> 0 <= x) /\
             (a == b -> x == 0)) /\
  iv_crush (Some 0) (Some b) = None /\ iv_crush None (Some b) = None /\
  iv_crush (Some a) None = None.
Proof.
  intros Ha Hb. split; [|repeat split].
  unfold iv_crush. rewrite (positive_not_zero a Ha), (positive_not_zero b Hb). simpl.
  eexists. split; [reflexivity|].
  set (q := (b - a) / a).
  assert (Eq : b - a == q * a) by (unfold q; field; lra).
  set (y := q * 100.0).
  assert (Ey : y == 100 * q) by (unfold y; ring).
  assert (Hlow : -1 < q) by nra.
  assert (Hneg : b <= a -> q <= 0) by (intro; nra).
  assert (Hpos : a <= b -> 0 <= q) by (intro; nra).
  assert (Hup : y <= 0 -> py_round y 2 <= 0).
  { intro H. refine (proj2 (py_round_between y 2 (Qfloor y) 0 _)).
    split; [apply Qfloor_le | exact H]. }
  assert (Hdown : 0 <= y -> 0 <= py_round y 2).
  { intro H. refine (proj1 (py_round_between y 2 0 (Qceiling y) _)).
    split; [exact H | apply Qle_ceiling]. }
  repeat split.
  - destruct (Qlt_le_dec y 0) as [Hlt|Hge].
    + refine (proj1 (py_round_between y 2 (-100) 0 _)).
      change (inject_Z (-100)) with (-100). change (inject_Z 0) with 0. lra.
    + specialize (Hdown Hge). lra.
  - intro Hle. apply Hup. specialize (Hneg Hle). lra.
  - intro Hle. apply Hdown. specialize (Hpos Hle). lra.
  - intro E.
    assert (Z0 : y == inject_Z 0).
    { change (inject_Z 0) with 0. assert (q == 0) by nra. lra. }
    rewrite Z0. apply py_round_inject_Z.
Qed.

Lemma iv_crush_bounds_witness :
  exists x, iv_crush (Some 0.40) (Some 0.30) = Some x /\ -100 <= x /\ x <= 0.
Proof.
  destruct (iv_crush_bounds 0.40 0.30) as [(x & E & H1 & H2 & _) _];
    [reflexivity | reflexivity |].
  exists x. repeat split; [exact E | exact H1 | apply H2; discriminate].
Defined.

(** ** Daily statistics *)

Lemma floor_of_opp (y : Q) :
  Qfloor (- y) = (- Qfloor y)%Z \/ Qfloor (- y) = (- (Qfloor y + 1))%Z.
Proof.
  pose proof (Qfloor_le y) as F1. pose proof (Qlt_floor y) as F2.
  pose proof (Qfloor_le (- y)) as G1. pose proof (Qlt_floor (- y)) as G2.
  assert (H1 : (Qfloor y <= - Qfloor (- y))%Z).
  { rewrite Zle_Qle, inject_Z_opp. lra. }
  assert (H2 : (- Qfloor (- y) < Qfloor y + 2)%Z).
  { rewrite inject_Z_plus in F2, G2. change (inject_Z 1) with 1 in F2, G2.
    rewrite Zlt_Qlt, inject_Z_plus, inject_Z_opp. change (inject_Z 2) with 2. lra. }
  lia.
Qed.

Lemma round_half_even_opp (y : Q) : round_half_even (- y) = (- round_half_even y)%Z.
Proof.
  pose proof (Qfloor_le y) as F1. pose proof (Qlt_floor y) as F2.
  pose proof (Qfloor_le (- y)) as G1. pose proof (Qlt_floor (- y)) as G2.
  rewrite inject_Z_plus in F2, G2. change (inject_Z 1) with 1 in F2, G2.
  unfold round_half_even. cbv zeta.
  destruct (floor_of_opp y) as [E|E]; rewrite E in *.
  - rewrite inject_Z_opp in *.
    assert (T1 : Qltb (- y - - inject_Z (Qfloor y)) (1 # 2) = true) by (apply Qltb_lt; lra).
    assert (T2 : Qltb (y - inject_Z (Qfloor y)) (1 # 2) = true) by (apply Qltb_lt; lra).
    now rewrite T1, T2.
  - rewrite inject_Z_opp, inject_Z_plus in *. change (inject_Z 1) with 1 in *.
    set (f := Qfloor y) in *.
    destruct (Qltb (y - inject_Z f) (1 # 2)) eqn:A1.
    + apply Qltb_lt in A1.
      assert (T1 : Qltb (- y - - (inject_Z f + 1)) (1 # 2) = false) by (apply Qltb_ge; lra).
      assert (T2 : Qltb (1 # 2) (- y - - (inject_Z f + 1)) = true) by (apply Qltb_lt; lra).
      rewrite T1, T2. lia.
    + apply Qltb_ge in A1.
      destruct (Qltb (1 # 2) (y - inject_Z f)) eqn:A2.
      * apply Qltb_lt in A2.
        assert (T1 : Qltb (- y - - (inject_Z f + 1)) (1 # 2) = true) by (apply Qltb_lt; lra).
        rewrite T1. lia.
      * apply Qltb_ge in A2.
        assert (T1 : Qltb (- y - - (inject_Z f + 1)) (1 # 2) = false) by (apply Qltb_ge; lra).
        assert (T2 : Qltb (1 # 2) (- y - - (inject_Z f + 1)) = false) by (apply Qltb_ge; lra).
        rewrite T1, T2.
        change (f + 1)%Z with (Z.succ f).
        rewrite Z.even_opp, Z.even_succ, <- Z.negb_even.
        destruct (Z.even f); simpl; lia.
Qed.

Lemma py_round_opp (x : Q) (ndigits : nat) : py_round (- x) ndigits == - py_round x ndigits.
Proof.
  unfold py_round.
  set (s := inject_Z (10 ^ Z.of_nat ndigits)).
  assert (Hs : 0 < s) by apply scale_pos.
  assert (E : - x * s == - (x * s)) by ring.
  rewrite (round_half_even_comp _ _ E), round_half_even_opp, inject_Z_opp.
  field. lra.
Qed.

(** A close at the high gives a close-location value of 1, a close at the
    low gives -1, and a close half-way gives 0. *)
Theorem clv_endpoints (prev_close : Q) (d0 : bar) :
  low d0 < high d0 ->
  let v := clv_of (gapfill_and_clv prev_close d0) in
  (close d0 == high d0 -> v == 1) /\
  (close d0 == low d0 -> v == -1) /\
  (2 * close d0 == high d0 + low d0 -> v == 0).
Proof.
  intros Hlt. cbv zeta. unfold gapfill_and_clv, clv_of. cbv zeta. simpl snd.
  assert (E : Qltb (low d0) (high d0) = true) by now apply Qltb_lt.
  rewrite E.
  repeat split; intro Hc.
  - assert (X : (2 * close d0 - high d0 - low d0) / (high d0 - low d0) == inject_Z 1).
    { change (inject_Z 1) with 1. rewrite Hc. field. lra. }
    rewrite X. apply py_round_inject_Z.
  - assert (X : (2 * close d0 - high d0 - low d0) / (high d0 - low d0) == inject_Z (-1)).
    { change (inject_Z (-1)) with (-1). rewrite Hc. field. lra. }
    rewrite X. apply py_round_inject_Z.
  - assert (X : (2 * close d0 - high d0 - low d0) / (high d0 - low d0) == inject_Z 0).
    { change (inject_Z 0) with 0. rewrite Hc. field. lra. }
    rewrite X. apply py_round_inject_Z.
Qed.

Lemma clv_endpoints_witness :
  clv_of (gapfill_and_clv 100 (Bar 103 105 102 105)) == 1 /\
  clv_of (gapfill_and_clv 100 (Bar 103 105 102 102)) == -1.
Proof.
  split.
  - apply (clv_endpoints 100 (Bar 103 105 102 105)); reflexivity.
  - apply (clv_endpoints 100 (Bar 103 105 102 102)); reflexivity.
Defined.

(** After a gap up of more than [1e-9]: a low at the open fills 0 percent of
    the gap, a low at the previous close fills 100, and a low at least one and
    a half gaps below the open is capped at 150. *)
Theorem gap_up_landmarks (prev_close : Q) (d0 : bar) :
  prev_close + 1e-9 < open d0 ->
  let g := gapFillPct_of (gapfill_and_clv prev_close d0) in
  (low d0 == open d0 -> g == 0) /\
  (low d0 == prev_close -> g == 100) /\
  (low d0 <= open d0 - 1.5 * (open d0 - prev_close) -> g == 150).
Proof.
  change 1e-9 with (1 # 1000000000).
  intros Hgap. cbv zeta. unfold gapfill_and_clv, gapFillPct_of. cbv zeta. simpl fst.
  change 1e-9 with (1 # 1000000000).
  assert (Eup : Qle_bool prev_close (open d0) = true) by (apply Qle_bool_iff; lra).
  rewrite Eup.
  assert (Egap : Qltb (1 # 1000000000) (open d0 - prev_close) = true) by (apply Qltb_lt; lra).
  rewrite Egap.
  set (q := (open d0 - low d0) / (open d0 - prev_close)).
  assert (Eq : open d0 - low d0 == q * (open d0 - prev_close)) by (unfold q; field; lra).
  rewrite py_min_spec.
  repeat split; intro Hl.
  - assert (X : Qmin 150.0 (100.0 * q) == inject_Z 0).
    { change (inject_Z 0) with 0. assert (q == 0) by nra. rewrite Q.min_r; lra. }
    rewrite X. apply py_round_inject_Z.
  - assert (X : Qmin 150.0 (100.0 * q) == inject_Z 100).
    { change (inject_Z 100) with 100. assert (q == 1) by nra. rewrite Q.min_r; lra. }
    rewrite X. apply py_round_inject_Z.
  - assert (X : Qmin 150.0 (100.0 * q) == inject_Z 150).
    { change (inject_Z 150) with 150. assert (1.5 <= q) by nra. rewrite Q.min_l; lra. }
    rewrite X. apply py_round_inject_Z.
Qed.

Lemma gap_up_landmarks_witness :
  gapFillPct_of (gapfill_and_clv 100 (Bar 104 105 100 101)) == 100 /\
  gapFillPct_of (gapfill_and_clv 100 (Bar 104 105 97 101)) == 150.
Proof.
  split.
  - apply (gap_up_landmarks 100 (Bar 104 105 100 101)); reflexivity.
  - apply (gap_up_landmarks 100 (Bar 104 105 97 101)); [reflexivity | discriminate].
Defined.

(** Gaps up and gaps down are treated alike: reflecting the bar about the
    previous close keeps the gap-fill percentage and negates the
    close-location value. *)
Theorem mirror_symmetry (prev_close : Q) (d0 : bar) :
  gapFillPct_of (gapfill_and_clv prev_close (mirror prev_close d0))
  == gapFillPct_of (gapfill_and_clv prev_close d0) /\
  clv_of (gapfill_and_clv prev_close (mirror prev_close d0))
  == - clv_of (gapfill_and_clv prev_close d0).
Proof.
  unfold gapfill_and_clv, gapFillPct_of, clv_of, mirror. cbv zeta. simpl.
  set (p := prev_close). set (o := open d0). set (h := high d0).
  set (l := low d0). set (c := close d0).
  split.
  - apply py_round_comp; [|reflexivity].
    destruct (Qle_bool p o) eqn:U; destruct (Qle_bool p (2 * p - o)) eqn:U'.
    + apply Qle_bool_iff in U, U'.
      assert (T1 : Qltb 1e-9 (2 * p - o - p) = false) by (apply Qltb_ge; change 1e-9 with (1 # 1000000000); lra).
      assert (T2 : Qltb 1e-9 (o - p) = false) by (apply Qltb_ge; change 1e-9 with (1 # 1000000000); lra).
      now rewrite T1, T2.
    + assert (G : p - (2 * p - o) == o - p) by ring.
      rewrite (Qltb_comp _ _ (Qeq_refl 1e-9) _ _ G).
      destruct (Qltb 1e-9 (o - p)) eqn:B; [|reflexivity].
      apply Qltb_lt in B.
      assert (Hnz : ~ o - p == 0).
      { intro Z0. rewrite Z0 in B. revert B. apply Qle_not_lt. discriminate. }
      apply py_min_comp; [reflexivity|]. rewrite G. field. exact Hnz.
    + assert (G : 2 * p - o - p == p - o) by ring.
      rewrite (Qltb_comp _ _ (Qeq_refl 1e-9) _ _ G).
      destruct (Qltb 1e-9 (p - o)) eqn:B; [|reflexivity].
      apply Qltb_lt in B.
      assert (Hnz : ~ p - o == 0).
      { intro Z0. rewrite Z0 in B. revert B. apply Qle_not_lt. discriminate. }
      apply py_min_comp; [reflexivity|]. rewrite G. field. exact Hnz.
    + apply Qle_bool_gt in U, U'. lra.
  - assert (G : Qltb (2 * p - h) (2 * p - l) = Qltb l h).
    { apply eq_true_iff_eq. rewrite !Qltb_lt. split; intro; lra. }
    rewrite G. destruct (Qltb l h) eqn:B.
    + apply Qltb_lt in B. rewrite <- py_round_opp.
      apply py_round_comp; [|reflexivity]. field. lra.
    + reflexivity.
Qed.

(** ** Daily bars as parsed JSON *)



Lemma number_is_number (v : json) :
  is_number v = true -> exists q, number v = ret q.
Proof.
  destruct v as [|[|]| | | |]; try discriminate; intros _; eexists; reflexivity.
Qed.

Lemma not_number_raises (v : json) :
  is_number v = false -> number v = raise TypeError.
Proof. destruct v as [|[|]| | | |]; try discriminate; reflexivity. Qed.

(** A previous close, open, high or low that is not a number (a [null] of
    a day without trading, say) raises [TypeError]; the close is read only
    when [high > low], so on a bar with [high <= low] any close will do and the
    close-location value is 0. *)
Theorem gapfill_and_clv_json_missing (prev_close d0 o h l c : json) :
  getitem d0 "open" = ret o -> getitem d0 "high" = ret h ->
  getitem d0 "low" = ret l -> getitem d0 "close" = ret c ->
  (is_number prev_close && is_number o && is_number h && is_number l = false ->
   gapfill_and_clv_json prev_close d0 = raise TypeError) /\
  (forall hq lq,
      is_number prev_close = true -> is_number o = true ->
      number h = ret hq -> number l = ret lq ->
      (hq <= lq ->
       exists r, gapfill_and_clv_json prev_close d0 = ret r /\ snd r == 0) /\
      (lq < hq ->
       (is_number c = true -> exists r, gapfill_and_clv_json prev_close d0 = ret r) /\
       (is_number c = false -> gapfill_and_clv_json prev_close d0 = raise TypeError))).
Proof.
  intros Ho Hh Hl Hc. unfold gapfill_and_clv_json.
  rewrite Ho, Hh, Hl, Hc, !bind_ret.
  split.
  - intro Hbad.
    destruct (is_number o) eqn:No; [|now rewrite (not_number_raises _ No)].
    destruct (number_is_number _ No) as [oq ->]. rewrite bind_ret.
    destruct (is_number prev_close) eqn:Np; [|now rewrite (not_number_raises _ Np)].
    destruct (number_is_number _ Np) as [pq ->]. rewrite bind_ret.
    destruct (is_number h) eqn:Nh; destruct (is_number l) eqn:Nl; try discriminate Hbad.
    + destruct (number_is_number _ Nh) as [hq Eh].
      rewrite Eh, (not_number_raises _ Nl).
      destruct (Qle_bool pq oq); reflexivity.
    + destruct (number_is_number _ Nl) as [lq El].
      rewrite El, (not_number_raises _ Nh).
      destruct (Qle_bool pq oq); reflexivity.
    + rewrite (not_number_raises _ Nl), (not_number_raises _ Nh).
      destruct (Qle_bool pq oq); reflexivity.
  - intros hq lq Np No Eh El.
    destruct (number_is_number _ No) as [oq ->].
    destruct (number_is_number _ Np) as [pq ->].
    rewrite Eh, El, !bind_ret.
    assert (Hretr : forall k : Q -> exc (Q * Q),
               bind (if Qle_bool pq oq then bind (ret lq) (fun lq0 => ret (oq - lq0))
                     else bind (ret hq) (fun hq0 => ret (hq0 - oq))) k
               = k (if Qle_bool pq oq then oq - lq else hq - oq)).
    { intro k. destruct (Qle_bool pq oq); reflexivity. }
    rewrite Hretr, !bind_ret.
    split.
    + intro Hle. assert (E : Qltb lq hq = false) by now apply Qltb_ge.
      rewrite E, bind_ret. eexists. split; [reflexivity|]. reflexivity.
    + intro Hlt. assert (E : Qltb lq hq = true) by now apply Qltb_lt.
      rewrite E. split; intro Nc.
      * destruct (number_is_number _ Nc) as [cq ->]. rewrite !bind_ret.
        eexists. reflexivity.
      * now rewrite (not_number_raises _ Nc).
Qed.

Lemma gapfill_and_clv_json_missing_witness :
  gapfill_and_clv_json (JNum 100)
    (JObj [("open"%string, JNull); ("high"%string, JNull);
           ("low"%string, JNull); ("close"%string, JNull);
           ("volume"%string, JNull)])
  = raise TypeError.
Proof.
  refine (proj1 (gapfill_and_clv_json_missing (JNum 100)
                   (JObj [("open"%string, JNull); ("high"%string, JNull);
                          ("low"%string, JNull); ("close"%string, JNull);
                          ("volume"%string, JNull)])
                   JNull JNull JNull JNull
                   eq_refl eq_refl eq_refl eq_refl) eq_refl).
Defined.

Lemma hist_bar_fields (j d : json) :
  hist_bar j = ret d ->
  exists o h l c v,
    d = JObj [("open"%string, o); ("high"%string, h); ("low"%string, l);
              ("close"%string, c); ("volume"%string, v)].
Proof.
  intro H. unfold hist_bar in H.
  do 16 (let a := fresh "a" in let Ha := fresh "Ha" in
         apply bind_returns in H; destruct H as (a & Ha & H)).
  injection H as <-. now eexists _, _, _, _, _.
Qed.




(** The statistics are absent when the row is not a post capture, when the
    collaborator fails for either day, and when yesterday's close or one of
    today's open, high and low is not a number. *)
Theorem realized_absent (hist : string -> Z -> exc json) (tkr : string) (today : Z) :
  realized hist false tkr today = (None, None) /\
  ((exists e, hist tkr today = raise e) -> realized hist true tkr today = (None, None)) /\
  ((exists e, hist tkr (today - 1)%Z = raise e) ->
   realized hist true tkr today = (None, None)) /\
  (forall d0 dm1 pc,
      yahoo_hist_day hist tkr today = ret d0 ->
      yahoo_hist_day hist tkr (today - 1)%Z = ret dm1 ->
      getitem dm1 "close" = ret pc ->
      is_number pc && is_number (field "open" d0) && is_number (field "high" d0)
      && is_number (field "low" d0) = false ->
      realized hist true tkr today = (None, None)).
Proof.
  unfold realized.
  split; [reflexivity|]. split; [|split].
  - intros [e He]. unfold yahoo_hist_day. rewrite He. reflexivity.
  - intros [e He]. unfold yahoo_hist_day at 2. rewrite He.
    destruct (yahoo_hist_day hist tkr today); reflexivity.
  - intros d0 dm1 pc H0 H1 Hpc Hbad. rewrite H0, bind_ret, H1, bind_ret, Hpc, bind_ret.
    unfold yahoo_hist_day in H0. apply bind_returns in H0. destruct H0 as (j0 & _ & H0).
    destruct (hist_bar_fields _ _ H0) as (o & h & l & c & v & ->).
    simpl field in Hbad.
    unfold gapfill_and_clv_json. simpl getitem. rewrite !bind_ret.
    destruct (is_number o) eqn:No; [|now rewrite (not_number_raises _ No)].
    destruct (number_is_number _ No) as [oq ->]. rewrite bind_ret.
    destruct (is_number pc) eqn:Np; [|now rewrite (not_number_raises _ Np)].
    destruct (number_is_number _ Np) as [pq ->]. rewrite bind_ret.
    destruct (is_number h) eqn:Nh; destruct (is_number l) eqn:Nl; try discriminate Hbad.
    + destruct (number_is_number _ Nh) as [hq Eh].
      rewrite Eh, (not_number_raises _ Nl).
      destruct (Qle_bool pq oq); reflexivity.
    + destruct (number_is_number _ Nl) as [lq El].
      rewrite El, (not_number_raises _ Nh).
      destruct (Qle_bool pq oq); reflexivity.
    + rewrite (not_number_raises _ Nl), (not_number_raises _ Nh).
      destruct (Qle_bool pq oq); reflexivity.
Qed.

(** ** More on the interpolation *)






(** When both selected expiries coincide (all future expiries lie on one
    side of the target), the estimate is not the at-the-money volatility
    itself: it is the root mean square of the two picks scaled by
    [sqrt(T / Tt)]; for one volatility [v] that is [v * sqrt(T / Tt)]. *)
Theorem coincident_expiries (iv1 iv2 v T : Q) :
  (estimate iv1 iv2 T T
   = sqrt (Rmax 1e-10 ((Q2R iv1 * Q2R iv1 + Q2R iv2 * Q2R iv2) / 2
                        * Q2R T / (30 / 365.25))))%R /\
  (0 <= v -> 0 <= T -> 1e-10 <= v * v * T / (30.0 / 365.25) ->
   (estimate v v T T = Q2R v * sqrt (Q2R T / (30 / 365.25)))%R).
Proof.
  assert (General : forall a b : Q,
    (estimate a b T T
     = sqrt (Rmax 1e-10 ((Q2R a * Q2R a + Q2R b * Q2R b) / 2 * Q2R T / (30 / 365.25))))%R).
  { intros a b. unfold estimate. rewrite Q2R_interpolate, Q2R_alpha.
    destruct (Rle_dec _ _) as [_|Hn].
    - f_equal. f_equal. lra.
    - exfalso. apply Hn. replace (Q2R T - Q2R T)%R with 0%R by ring.
      rewrite Rabs_R0. lra. }
  split; [apply General|].
  intros Hv HT Hfloor. rewrite General.
  apply Qle_Rle in Hv, HT, Hfloor.
  rewrite RMicromega.Q2R_0 in Hv, HT.
  rewrite (Q2R_div (_ * _)), !Q2R_mult, Q2R_target in Hfloor by discriminate.
  assert (E10 : Q2R 1e-10 = 1e-10%R) by (unfold Q2R; simpl; lra).
  rewrite E10 in Hfloor.
  replace ((Q2R v * Q2R v + Q2R v * Q2R v) / 2 * Q2R T / (30 / 365.25))%R
    with (Q2R v * Q2R v * (Q2R T / (30 / 365.25)))%R by lra.
  rewrite Rmax_right.
  - rewrite sqrt_mult_alt by nra. now rewrite sqrt_square.
  - unfold Rdiv in *. lra.
Qed.

(** ** Nearest strike *)









(** The volatility of one expiry: with picks as [nearest_atm_iv] returns
    them, the call pick when there is no put pick, the put pick when there is
    no call pick, and the mean of the two when both are numbers. *)
Theorem combine_picks (calls puts spot ivc ivp : json) :
  nearest_atm_iv calls spot = ret ivc -> nearest_atm_iv puts spot = ret ivp ->
  (ivp = JNull -> combine_iv ivc ivp = ret ivc) /\
  (ivc = JNull -> combine_iv ivc ivp = ret ivp) /\
  (forall a b, ivc <> JNull -> ivp <> JNull -> number ivc = ret a -> number ivp = ret b ->
               combine_iv ivc ivp = ret (JNum ((a + b) / 2))).
Proof.
  intros Hc Hp. unfold combine_iv. split; [|split].
  - intros ->. reflexivity.
  - intros ->. destruct (is_none ivp) eqn:E; [|reflexivity].
    destruct ivp; try discriminate. reflexivity.
  - intros a b Nc Np Ea Eb.
    rewrite (is_none_false _ Np).
    destruct (nearest_atm_iv_excludes _ _ _ Hc) as [->|[Hnz _]]; [congruence|].
    assert (T : truthy ivc = true).
    { destruct ivc as [|[|]|q| | |]; try discriminate; try reflexivity.
      simpl in *. now rewrite Hnz. }
    now rewrite T, Ea, bind_ret, Eb, bind_ret.
Qed.

Lemma combine_picks_witness :
  combine_iv (JNum 0.30) (JNum 0.32) = ret (JNum ((0.30 + 0.32) / 2)).
Proof.
  refine (proj2 (proj2 (combine_picks
                          (JArr [option_row (JNum 100) (JNum 0.30)])
                          (JArr [option_row (JNum 100) (JNum 0.32)])
                          (JNum 100) (JNum 0.30) (JNum 0.32) eq_refl eq_refl))
            0.30 0.32 _ _ eq_refl eq_refl); discriminate.
Defined.

(** ** More on the choice of expiries *)









(** ** The collaborator *)




(** ** The rebuilt time stamp in binary64 *)

Lemma all_from_spec (f : Z -> bool) (count : nat) :
  forall lo, all_from f lo count = true ->
  forall k, (lo <= k < lo + Z.of_nat count)%Z -> f k = true.
Proof.
  induction count as [|count IH]; intros lo H k Hk; [lia|].
  simpl in H. destruct (f lo) eqn:E; [|discriminate].
  destruct (Z.eq_dec k lo) as [->|Hne]; [exact E|].
  apply (IH (lo + 1)%Z H). lia.
Qed.

Lemma rebuilt_ok_range : all_from rebuilt_ok 2419200 (Z.to_nat 345601) = true.
Proof. vm_compute. reflexivity. Qed.

Lemma whole_day_ok_range : all_from whole_day_ok 2 (Z.to_nat 59) = true.
Proof. vm_compute. reflexivity. Qed.

Lemma to_unix_shift (t_now m : Z) (d : PrimFloat.float) :
  Binary64.to_unix 0 d = Some m -> Binary64.to_unix t_now d = Some (t_now + m)%Z.
Proof.
  unfold Binary64.to_unix. destruct (Binary64.to_int _) as [k|]; [|discriminate].
  cbn [option_map]. intro H. injection H as <-. reflexivity.
Qed.

Lemma days_shift (e t_now : Z) : Binary64.days e t_now = Binary64.days (e - t_now) 0.
Proof. unfold Binary64.days. now rewrite Z.sub_0_r. Qed.

(** In binary64, for every expiry between 28 and 32 days ahead, the time
    stamp that the program rebuilds is the expiry or one second before it,
    never later, and the time to expiry in days compares with [30.0] as the
    seconds compare with 30 days; for an expiry a whole number of days ahead
    (2 to 60) the rebuilt time stamp is the expiry itself. *)
Theorem rebuilt_within_one_second (e t_now : Z) :
  ((2419200 <= e - t_now <= 2764800)%Z ->
   exists d,
     Binary64.days e t_now = Some d /\
     (Binary64.to_unix t_now d = Some e \/ Binary64.to_unix t_now d = Some (e - 1)%Z) /\
     PrimFloat.leb d Binary64.target_days = (e - t_now <=? 2592000)%Z /\
     PrimFloat.leb Binary64.target_days d = (2592000 <=? e - t_now)%Z) /\
  (forall k, (2 <= k <= 60)%Z -> (e - t_now = 86400 * k)%Z ->
   exists d, Binary64.days e t_now = Some d /\ Binary64.to_unix t_now d = Some e).
Proof.
  split.
  - intro Hn. rewrite days_shift. set (n := (e - t_now)%Z) in *.
    assert (Hok : rebuilt_ok n = true).
    { apply (all_from_spec _ _ _ rebuilt_ok_range). rewrite Z2Nat.id by lia. lia. }
    unfold rebuilt_ok in Hok.
    destruct (Binary64.days n 0) as [d|]; [|discriminate].
    destruct (Binary64.to_unix 0 d) as [m|] eqn:Em; [|discriminate].
    apply andb_true_iff in Hok. destruct Hok as [Hok H3].
    apply andb_true_iff in Hok. destruct Hok as [H1 H2].
    apply eqb_prop in H2, H3.
    exists d. repeat split; try assumption.
    rewrite (to_unix_shift t_now m d Em).
    apply orb_true_iff in H1. destruct H1 as [H1|H1]; apply Z.eqb_eq in H1;
      [left|right]; f_equal; unfold n in *; lia.
  - intros k Hk Ek. rewrite days_shift, Ek.
    assert (Hw : whole_day_ok k = true).
    { apply (all_from_spec _ _ _ whole_day_ok_range). rewrite Z2Nat.id by lia. lia. }
    unfold whole_day_ok in Hw.
    destruct (Binary64.days (86400 * k) 0) as [d|]; [|discriminate].
    destruct (Binary64.to_unix 0 d) as [m|] eqn:Em; [|discriminate].
    apply Z.eqb_eq in Hw. exists d. split; [reflexivity|].
    rewrite (to_unix_shift t_now m d Em). f_equal. lia.
Qed.

Lemma rebuilt_within_one_second_witness :
  exists d,
    Binary64.days 1702500000 1700000000 = Some d /\
    (Binary64.to_unix 1700000000 d = Some 1702500000%Z \/
     Binary64.to_unix 1700000000 d = Some (1702500000 - 1)%Z).
Proof.
  destruct (proj1 (rebuilt_within_one_second 1702500000 1700000000))
    as (d & Hd & Hu & _); [lia|].
  now exists d.
Defined.
